(** * mnelab.io.readers: suffix resolution and reader dispatch

    A shallow embedding of [src/mnelab/io/readers.py] and the properties of
    its dispatcher [read_raw], of the unsupported-format reporter
    [_read_unsupported] and of the flat-array loader [read_numpy].

    Conventions of the model.
    - A Python [str] is a Rocq [string]; each character stands for the code
      point of the same number, so the model covers the code points 0..255
      (Latin-1).  [str.lower] and [repr] are modelled exactly on that range.
    - [pathlib.Path] is the POSIX flavour ([/] is the only separator).
    - A [dict] with [str] keys is a [gmap string _]; only lookups, key
      iteration for a maximum, and merging are used by the source, none of
      which depends on insertion order.
    - Exceptions are values of [exn]; a call returns [result A = exn + A]. *)

From Stdlib Require Import Ascii String DecimalString ZArith List Lia.
From stdpp Require Import base option list numbers strings gmap fin_maps.

Local Open Scope string_scope.
Local Open Scope Z_scope.

(** ** Python strings *)

Module PyStr.

(** Code point of a character. *)
Definition ord (c : ascii) : N := N_of_ascii c.

(** [str.lower] on one code point below 256: [A-Z] and the Latin-1 capital
    letters U+00C0..U+00DE (without the multiplication sign U+00D7) move up
    by 32, every other code point is its own lower case. *)
Definition lower_char (c : ascii) : ascii :=
  let n := ord c in
  if ((65 <=? n) && (n <=? 90))%N then ascii_of_N (n + 32)
  else if ((192 <=? n) && (n <=? 222) && negb (n =? 215))%N
       then ascii_of_N (n + 32)
  else c.

(** [s.lower()] *)
Fixpoint lower (s : string) : string :=
  match s with
  | EmptyString => EmptyString
  | String c s' => String (lower_char c) (lower s')
  end.

(** [s.count(c)] for a one-character needle. *)
Fixpoint count (c : ascii) (s : string) : nat :=
  match s with
  | EmptyString => O
  | String d s' => if Ascii.eqb d c then S (count c s') else count c s'
  end.

(** [s.split(c)] for a one-character separator: never the empty list. *)
Fixpoint split (c : ascii) (s : string) : list string :=
  match s with
  | EmptyString => [EmptyString]
  | String d s' =>
      if Ascii.eqb d c then EmptyString :: split c s'
      else match split c s' with
           | [] => [String d EmptyString]
           | w :: ws => String d w :: ws
           end
  end.

(** [s.lstrip(c)] for a one-character set. *)
Fixpoint lstrip (c : ascii) (s : string) : string :=
  match s with
  | EmptyString => EmptyString
  | String d s' => if Ascii.eqb d c then lstrip c s' else s
  end.

(** [s.endswith(c)] for a one-character suffix. *)
Fixpoint endswith (c : ascii) (s : string) : bool :=
  match s with
  | EmptyString => false
  | String d EmptyString => Ascii.eqb d c
  | String _ s' => endswith c s'
  end.

(** [sep.join(l)] for the empty separator. *)
Definition join (l : list string) : string :=
  fold_right String.append EmptyString l.

(** [c in s] for a one-character needle. *)
Definition contains (c : ascii) (s : string) : bool :=
  match count c s with O => false | S _ => true end.

(** [l[i:]] : a negative start counts from the end, and a start outside
    the list is clamped to it. *)
Definition slice_from {A} (l : list A) (i : Z) : list A :=
  let n := Z.of_nat (length l) in
  let start := if i <? 0 then Z.max 0 (n + i) else Z.min i n in
  drop (Z.to_nat start) l.

(** [range(a, b)] with step 1. *)
Definition range (a b : Z) : list Z := seqZ a (b - a).

(** Decimal text of an [int]. *)
Definition str_nat (n : nat) : string :=
  NilZero.string_of_uint (Nat.to_uint n).
Definition str_int (z : Z) : string :=
  NilZero.string_of_int (Z.to_int z).

(** Two lower-case hexadecimal digits of a code point below 256. *)
Definition hex_digit (n : N) : ascii :=
  if (n <? 10)%N then ascii_of_N (48 + n) else ascii_of_N (87 + n).
Definition hex2 (n : N) : string :=
  String (hex_digit (n / 16)) (String (hex_digit (n mod 16)) EmptyString).

(** [str.isprintable] on one code point below 256: the controls
    U+0000..U+001F and U+007F..U+009F, the no-break space U+00A0 and the
    soft hyphen U+00AD are not printable. *)
Definition printable (c : ascii) : bool :=
  let n := ord c in
  negb ((n <? 32) || ((127 <=? n) && (n <=? 160)) || (n =? 173))%N.

(** One character of [repr(s)], inside the quote [q]. *)
Definition repr_char (q c : ascii) : string :=
  if Ascii.eqb c q then String "\" (String c EmptyString)
  else if Ascii.eqb c "\" then "\\"
  else if Ascii.eqb c "009" then "\t"
  else if Ascii.eqb c "010" then "\n"
  else if Ascii.eqb c "013" then "\r"
  else if printable c then String c EmptyString
  else "\x" ++ hex2 (ord c).

Fixpoint repr_body (q : ascii) (s : string) : string :=
  match s with
  | EmptyString => EmptyString
  | String c s' => repr_char q c ++ repr_body q s'
  end.

(** [repr(s)]: single quotes, unless [s] has a single quote and no double
    quote. *)
Definition repr (s : string) : string :=
  let q := if contains "'" s && negb (contains "034" s) then "034"%char
           else "'"%char in
  String q (repr_body q s ++ String q EmptyString).

(** [", ".join(l)] *)
Fixpoint join_comma (l : list string) : string :=
  match l with
  | [] => EmptyString
  | [x] => x
  | x :: l' => x ++ ", " ++ join_comma l'
  end.

(** [str(l)] for a list of [str]. *)
Definition str_list (l : list string) : string :=
  "[" ++ join_comma (map repr l) ++ "]".

End PyStr.

(** ** pathlib (POSIX flavour) *)

Module PurePath.

(** [Path(p).name]: the last component of [p], where empty components and
    single-dot components are dropped by the parser; the empty string when
    no component is left. *)
Definition name (p : string) : string :=
  let parts := filter (λ s, s ≠ EmptyString ∧ s ≠ ".") (PyStr.split "/" p) in
  List.last parts EmptyString.

(** [Path(p).suffixes], as pathlib defines it up to Python 3.13:
<<
    name = self.name
    if name.endswith('.'): return []
    name = name.lstrip('.')
    return ['.' + suffix for suffix in name.split('.')[1:]]
>> *)
Definition suffixes (p : string) : list string :=
  let name := name p in
  if PyStr.endswith "." name then []
  else map (λ suffix, String "." suffix)
           (tail (PyStr.split "." (PyStr.lstrip "." name))).

End PurePath.

(** ** Python values, exceptions and the external libraries *)

(** The values that travel through [*args] and [**kwargs].  [VObj] stands
    for any object other than [None], a [bool], an [int] or a [str]
    (a [float], an array, ...); the dispatcher only passes it on. *)
Inductive value (Obj : Type) : Type :=
  | VNone
  | VBool (b : bool)
  | VInt (z : Z)
  | VStr (s : string)
  | VObj (o : Obj).
Arguments VNone {Obj}.
Arguments VBool {Obj} b.
Arguments VInt {Obj} z.
Arguments VStr {Obj} s.
Arguments VObj {Obj} o.

(** Why the interpreter refuses to bind the arguments of a call. *)
Inductive type_error : Type :=
  | MissingArgument (name : string)
  | MultipleValues (name : string)
  | TooManyPositional (given : nat).

(** Exceptions.  [ValueError], [TypeError] and [IndexError] are raised by this
    module or by the interpreter on its behalf; [ExternalError] is whatever
    numpy, mne or pyxdf raise from inside their own code. *)
Inductive exn (Err : Type) : Type :=
  | ValueError (msg : string)
  | TypeError (why : type_error)
  | IndexError
  | ExternalError (e : Err).
Arguments ValueError {Err} msg.
Arguments TypeError {Err} why.
Arguments IndexError {Err}.
Arguments ExternalError {Err} e.

(** What this module observes of [mne.Info] and of [mne.io.Raw]. *)
Record Info (V : Type) : Type := mkInfo {
  info_nchan : nat;            (* [info["nchan"]] *)
  info_sfreq : V               (* [info["sfreq"]] *)
}.
Arguments mkInfo {V} _ _.
Arguments info_nchan {V} _.
Arguments info_sfreq {V} _.

Record Raw (V A : Type) : Type := mkRaw {
  raw_info : Info V;           (* [raw.info] *)
  raw_data : A;                (* the samples *)
  _filenames : list string     (* [raw._filenames] *)
}.
Arguments mkRaw {V A} _ _ _.
Arguments raw_info {V A} _.
Arguments raw_data {V A} _.
Arguments _filenames {V A} _.

(** The parsers of the registry that live outside this module. *)
Inductive external_reader : Type :=
  | read_raw_edf | read_raw_bdf | read_raw_gdf | read_raw_brainvision
  | read_raw_fif | read_raw_eeglab | read_raw_cnt | read_raw_egi
  | read_raw_eximia | read_raw_nirx | read_raw_xdf.

(** Everything the module imports: numpy, mne, [.xdf.read_raw_xdf] and the
    capability table [..utils.have].  None of it is under [src/]; it is taken
    as given. *)
Class World : Type := {
  Obj : Type;
  obj_str : Obj → string;            (* text of such an object in an f-string *)
  Err : Type;
  ndarray : Type;
  shape : ndarray → list nat;        (* [a.shape] *)
  np_load : string → Err + ndarray;  (* [np.load(fname)], on an array file *)
  mne_create_info : nat → value Obj → Err + Info (value Obj);
  mne_RawArray : ndarray → Info (value Obj) → Err + Raw (value Obj) ndarray;
  external_read :
    external_reader → string → list (value Obj) → gmap string (value Obj) →
    Err + Raw (value Obj) ndarray;
  have_pyxdf : bool                  (* [have["pyxdf"]] *)
}.

Section Readers.
Context `{W : World}.

Local Abbreviation val := (value Obj).
Local Abbreviation dict := (gmap string (value Obj)).
Local Abbreviation raw := (Raw (value Obj) ndarray).
Local Abbreviation result A := (exn Err + A)%type.

Definition raise {A} (e : exn Err) : result A := inl e.
Definition ret {A} (a : A) : result A := inr a.
Definition bind {A B} (m : result A) (k : A → result B) : result B :=
  match m with inl e => inl e | inr a => k a end.
(** A call into an external library: its failure is an [ExternalError]. *)
Definition extern {A} (m : Err + A) : result A :=
  match m with inl e => inl (ExternalError e) | inr a => inr a end.

Local Notation "'do' x <- m 'in' k" := (bind m (λ x, k))
  (at level 10, x name, m at level 100, k at level 200).

(** A replacement field of an f-string, [f"{v}"]. *)
Definition format (v : val) : string :=
  match v with
  | VNone => "None"
  | VBool true => "True"
  | VBool false => "False"
  | VInt z => PyStr.str_int z
  | VStr s => s
  | VObj o => obj_str o
  end.

(** [d.get(k)]: [None] when the key is absent. *)
Definition dict_get (d : dict) (k : string) : val := default VNone (d !! k).

(** A dict display [{k1: v1, ...}] and [d.update(...)]: entries are stored
    in order, a later entry replaces an earlier one with the same key. *)
Definition dict_update {A} (d : gmap string A) (items : list (string * A))
  : gmap string A :=
  fold_left (λ m kv, <[kv.1 := kv.2]> m) items d.
Definition dict_of {A} (items : list (string * A)) : gmap string A :=
  dict_update ∅ items.

(** [{**a, **b}]: the entries of [a], then those of [b] stored over them. *)
Definition dict_merge {A} (a b : gmap string A) : gmap string A := b ∪ a.

(** [max(l)] *)
Definition py_max (l : list nat) : result nat :=
  match l with
  | [] => raise (ValueError "max() arg is an empty sequence")
  | _ :: _ => ret (max_list l)
  end.

(** *** The two readers defined in the module *)

Definition _read_unsupported (fname : string) (kwargs : dict) : result raw :=
  let ext := PyStr.join (PurePath.suffixes fname) in
  let msg := "Unsupported file type (" ++ ext ++ ")." in
  let suggest := dict_get kwargs "suggest" in
  let msg := match suggest with
             | VNone => msg
             | _ => msg ++ " Try reading a " ++ format suggest ++ " file instead."
             end in
  raise (ValueError msg).

Definition ndim (a : ndarray) : nat := length (shape a).

Definition read_numpy (fname : string) (sfreq : val)
    (args : list val) (kwargs : dict) : result raw :=
  do npy <- extern (np_load fname) in
  if decide (ndim npy ≠ 2%nat) then
    raise (ValueError ("Array must have two dimensions (got "
                       ++ PyStr.str_nat (ndim npy) ++ ")."))
  else
    do rows <- match shape npy !! 0%nat with
               | Some n => ret n
               | None => raise IndexError
               end in
    do info <- extern (mne_create_info rows sfreq) in
    do r <- extern (mne_RawArray npy info) in
    ret (mkRaw (raw_info r) (raw_data r) [fname]).

(** *** Callables and the binding of their arguments *)

Inductive func : Type :=
  | External (r : external_reader)
  | ReadNumpy
  | ReadUnsupported.

(** A function of the registry, or [functools.partial(f, **keywords)]. *)
Inductive callable : Type :=
  | Fn (f : func)
  | Partial (f : func) (keywords : dict).

(** [f(fname, *args, **kwargs)].  A keyword that names a parameter already
    bound by position is refused first, then a positional argument with no
    parameter to take it, then a parameter left without a value. *)
Definition call_func (f : func) (fname : string)
    (args : list val) (kwargs : dict) : result raw :=
  match f with
  | External r => extern (external_read r fname args kwargs)
  | ReadNumpy =>
      (* def read_numpy(fname, sfreq, *args, **kwargs) *)
      if decide (is_Some (kwargs !! "fname")) then
        raise (TypeError (MultipleValues "fname"))
      else match args with
           | sfreq :: rest =>
               if decide (is_Some (kwargs !! "sfreq")) then
                 raise (TypeError (MultipleValues "sfreq"))
               else read_numpy fname sfreq rest kwargs
           | [] =>
               match kwargs !! "sfreq" with
               | Some sfreq => read_numpy fname sfreq [] (delete "sfreq" kwargs)
               | None => raise (TypeError (MissingArgument "sfreq"))
               end
           end
  | ReadUnsupported =>
      (* def _read_unsupported(fname, **kwargs) *)
      if decide (is_Some (kwargs !! "fname")) then
        raise (TypeError (MultipleValues "fname"))
      else match args with
           | [] => _read_unsupported fname kwargs
           | _ :: _ => raise (TypeError (TooManyPositional (S (length args))))
           end
  end.

(** [c(fname, *args, **kwargs)]: a partial object adds its own keywords,
    and a keyword of the call replaces one of the same name. *)
Definition call (c : callable) (fname : string)
    (args : list val) (kwargs : dict) : result raw :=
  match c with
  | Fn f => call_func f fname args kwargs
  | Partial f keywords => call_func f fname args (dict_merge keywords kwargs)
  end.

(** *** The registries *)

(** supported read file formats *)
Definition supported : gmap string callable :=
  let supported :=
    dict_of [ (".edf", Fn (External read_raw_edf));
              (".bdf", Fn (External read_raw_bdf));
              (".gdf", Fn (External read_raw_gdf));
              (".vhdr", Fn (External read_raw_brainvision));
              (".fif", Fn (External read_raw_fif));
              (".fif.gz", Fn (External read_raw_fif));
              (".set", Fn (External read_raw_eeglab));
              (".cnt", Fn (External read_raw_cnt));
              (".mff", Fn (External read_raw_egi));
              (".nxe", Fn (External read_raw_eximia));
              (".hdr", Fn (External read_raw_nirx));
              (".npy", Fn ReadNumpy) ] in
  if have_pyxdf then
    dict_update supported [ (".xdf", Fn (External read_raw_xdf));
                            (".xdfz", Fn (External read_raw_xdf));
                            (".xdf.gz", Fn (External read_raw_xdf)) ]
  else supported.

(** known but unsupported file formats *)
Definition suggested : gmap string callable :=
  dict_of [ (".vmrk", Partial ReadUnsupported (dict_of [("suggest", VStr ".vhdr")]));
            (".eeg", Partial ReadUnsupported (dict_of [("suggest", VStr ".vhdr")])) ].

(** all known file formats *)
Definition readers : gmap string callable := dict_merge supported suggested.

(** *** The dispatcher *)

(** The candidate of loop index [i]: the suffixes from [i] on, joined
    and lower-cased. *)
Definition candidate (suffixes : list string) (i : Z) : string :=
  PyStr.lower (PyStr.join (PyStr.slice_from suffixes i)).

(** The [for] loop of [read_raw], which leaves at the first index whose
    candidate is a key of [readers]: the key and the reader found there, or
    [None] when the loop runs to its end. *)
Fixpoint read_raw_for (readers : gmap string callable)
    (suffixes : list string) (indices : list Z) : option (string * callable) :=
  match indices with
  | [] => None
  | i :: rest =>
      let ext := candidate suffixes i in
      match readers !! ext with
      | Some reader => Some (ext, reader)
      | None => read_raw_for readers suffixes rest
      end
  end.

(** [maxsuffixes = max([ext.count(".") for ext in supported])] *)
Definition maxsuffixes (supported : gmap string callable) : result nat :=
  py_max (map (λ ext, PyStr.count "." ext) (map fst (map_to_list supported))).

(** The Suffix Resolver of the specification (4.2): what [read_raw] has
    settled when it leaves its loop, before any reader is called. *)
Definition resolve (supported readers : gmap string callable)
    (fname : string) : result (option (string * callable)) :=
  do maxsuffixes <- maxsuffixes supported in
  ret (read_raw_for readers (PurePath.suffixes fname)
         (PyStr.range (- Z.of_nat maxsuffixes) 0)).

(** The message of the error raised when the loop finds nothing. *)
Definition unknown_file_type (fname : string) : string :=
  "Unknown file type " ++ PyStr.str_list (PurePath.suffixes fname) ++ ".".

(** [read_raw] over the two module-level dicts it reads. *)
Definition read_raw_in (supported readers : gmap string callable)
    (fname : string) (args : list val) (kwargs : dict) : result raw :=
  do maxsuffixes <- maxsuffixes supported in
  let suffixes := PurePath.suffixes fname in
  match read_raw_for readers suffixes (PyStr.range (- Z.of_nat maxsuffixes) 0) with
  | Some (ext, reader) => call reader fname args kwargs
  | None => raise (ValueError ("Unknown file type " ++ PyStr.str_list suffixes ++ "."))
  end.

(** [read_raw] of the module. *)
Definition read_raw (fname : string) (args : list val) (kwargs : dict)
  : result raw :=
  read_raw_in supported readers fname args kwargs.

End Readers.

(** ** A small world to run the model in

    Arrays are just their shape, two files exist on disk, mne builds its
    objects without complaint and keeps what it is given, and an external
    parser stops with an error that carries its own name, which makes the
    dispatch visible. *)

Record sample_array : Type := { sample_shape : list nat }.

Definition reader_name (r : external_reader) : string :=
  match r with
  | read_raw_edf => "read_raw_edf" | read_raw_bdf => "read_raw_bdf"
  | read_raw_gdf => "read_raw_gdf" | read_raw_brainvision => "read_raw_brainvision"
  | read_raw_fif => "read_raw_fif" | read_raw_eeglab => "read_raw_eeglab"
  | read_raw_cnt => "read_raw_cnt" | read_raw_egi => "read_raw_egi"
  | read_raw_eximia => "read_raw_eximia" | read_raw_nirx => "read_raw_nirx"
  | read_raw_xdf => "read_raw_xdf"
  end.

Definition sample_world (pyxdf : bool) : World := {|
  Obj := Empty_set;
  obj_str := λ o, match o with end;
  Err := string;
  ndarray := sample_array;
  shape := sample_shape;
  np_load := λ fname,
    if String.eqb fname "one.npy" then inr {| sample_shape := [7%nat] |}
    else if String.eqb fname "eeg.npy" then inr {| sample_shape := [5%nat; 1000%nat] |}
    else inl "FileNotFoundError";
  mne_create_info := λ n sfreq, inr (mkInfo n sfreq);
  mne_RawArray := λ a i, inr (mkRaw i a []);
  external_read := λ r _ _ _, inl (reader_name r);
  have_pyxdf := pyxdf
|}.


(** Registries other than the module's own, to exercise the dispatcher where
    a compound suffix and its tail are both registered. *)
Definition gz_supported `{W : World} : gmap string callable :=
  dict_of [ (".gz", Fn (External read_raw_edf));
            (".fif.gz", Fn (External read_raw_fif));
            (".a.b.c", Fn (External read_raw_cnt)) ].

Definition gz_only `{W : World} : gmap string callable :=
  dict_of [ (".gz", Fn (External read_raw_fif)) ].


Definition long_suggested `{W : World} : gmap string callable :=
  dict_of [ (".b.gz", Partial ReadUnsupported (dict_of [("suggest", VStr ".fif")])) ].

Definition upper_key `{W : World} : gmap string callable :=
  dict_of [ (".EDF", Fn (External read_raw_edf)) ].

Definition clash_supported `{W : World} : gmap string callable :=
  dict_of [ (".vmrk", Fn (External read_raw_brainvision)) ].

(** * Properties *)

(** ** The model on a few inputs *)

Example lower_ex : PyStr.lower "Data.EDF" = "data.edf".
Proof. reflexivity. Qed.

Example suffixes_compound : PurePath.suffixes "/tmp/a.b.fif.gz" = [".b"; ".fif"; ".gz"].
Proof. reflexivity. Qed.

Example suffixes_hidden : PurePath.suffixes "dir.d/.hidden" = [].
Proof. reflexivity. Qed.

Example suffixes_trailing_dot : PurePath.suffixes "x.edf." = [].
Proof. reflexivity. Qed.

Example suffixes_trailing_slash : PurePath.suffixes "rec.vhdr/" = [".vhdr"].
Proof. reflexivity. Qed.

Example str_list_quotes :
  PyStr.str_list [".tar"; ".it's"]
  = "['.tar', " ++ String "034" ".it's" ++ String "034" "]".
Proof. reflexivity. Qed.

Example slice_from_clamped :
  PyStr.slice_from [1; 2; 3] (-2) = [2; 3] ∧ PyStr.slice_from [1; 2; 3] (-5) = [1; 2; 3].
Proof. split; reflexivity. Qed.

Example range_ex : PyStr.range (-2) 0 = [-2; -1].
Proof. reflexivity. Qed.

Example read_raw_edf_ex :
  read_raw (W := sample_world false) "Data.EDF" [] ∅ = inl (ExternalError "read_raw_edf").
Proof. vm_compute; reflexivity. Qed.

Example read_raw_fif_gz_ex :
  read_raw (W := sample_world false) "run1.raw.FIF.gz" [] ∅
  = inl (ExternalError "read_raw_fif").
Proof. vm_compute; reflexivity. Qed.

Example read_raw_xdf_absent :
  read_raw (W := sample_world false) "rec.xdf" [] ∅
  = inl (ValueError "Unknown file type ['.xdf'].").
Proof. vm_compute; reflexivity. Qed.

Example read_raw_xdf_present :
  read_raw (W := sample_world true) "rec.xdf.gz" [] ∅
  = inl (ExternalError "read_raw_xdf").
Proof. vm_compute; reflexivity. Qed.

Example read_raw_npy_ex :
  read_raw (W := sample_world false) "eeg.npy" [VInt 250] ∅
  = inr (mkRaw (mkInfo 5 (VInt 250)) {| sample_shape := [5%nat; 1000%nat] |} ["eeg.npy"]).
Proof. vm_compute; reflexivity. Qed.

Example read_raw_npy_keyword :
  read_raw (W := sample_world false) "eeg.npy" [] (dict_of [("sfreq", VInt 250)])
  = inr (mkRaw (mkInfo 5 (VInt 250)) {| sample_shape := [5%nat; 1000%nat] |} ["eeg.npy"]).
Proof. vm_compute; reflexivity. Qed.

Example read_raw_npy_no_sfreq :
  read_raw (W := sample_world false) "eeg.npy" [] ∅
  = inl (TypeError (MissingArgument "sfreq")).
Proof. vm_compute; reflexivity. Qed.

(** ** Strings *)

Section StringFacts.

Lemma str_app_cons c (s t : string) : String c s ++ t = String c (s ++ t).
Proof. reflexivity. Qed.

Lemma str_app_nil_r (s : string) : s ++ EmptyString = s.
Proof.
  induction s as [| c s IH]; [done |].
  by rewrite str_app_cons, IH.
Qed.

Lemma str_app_assoc (a b c : string) : (a ++ b) ++ c = a ++ b ++ c.
Proof.
  induction a as [| d a IH]; [done |].
  by rewrite !str_app_cons, IH.
Qed.

Lemma lower_char_idem c : PyStr.lower_char (PyStr.lower_char c) = PyStr.lower_char c.
Proof. destruct c as [[] [] [] [] [] [] [] []]; reflexivity. Qed.

Lemma lower_char_dot c : PyStr.lower_char c = "."%char ↔ c = "."%char.
Proof.
  split; [| intros ->; reflexivity].
  destruct c as [[] [] [] [] [] [] [] []]; vm_compute; congruence.
Qed.

Lemma lower_char_slash c : PyStr.lower_char c = "/"%char ↔ c = "/"%char.
Proof.
  split; [| intros ->; reflexivity].
  destruct c as [[] [] [] [] [] [] [] []]; vm_compute; congruence.
Qed.

Lemma lower_app a b : PyStr.lower (a ++ b) = PyStr.lower a ++ PyStr.lower b.
Proof. induction a as [| c a IH]; simpl; [done | by rewrite IH]. Qed.

Lemma lower_idem s : PyStr.lower (PyStr.lower s) = PyStr.lower s.
Proof.
  induction s as [| c s IH]; simpl; [done |].
  by rewrite lower_char_idem, IH.
Qed.

Lemma lower_join l : PyStr.lower (PyStr.join l) = PyStr.join (map PyStr.lower l).
Proof.
  induction l as [| x l IH]; simpl; [done |].
  by rewrite lower_app, IH.
Qed.

Lemma eqb_lower_dot c : Ascii.eqb (PyStr.lower_char c) "." = Ascii.eqb c ".".
Proof.
  destruct (Ascii.eqb_spec c ".") as [-> | Hne]; [done |].
  apply Ascii.eqb_neq. by rewrite lower_char_dot.
Qed.

Lemma eqb_lower_slash c : Ascii.eqb (PyStr.lower_char c) "/" = Ascii.eqb c "/".
Proof.
  destruct (Ascii.eqb_spec c "/") as [-> | Hne]; [done |].
  apply Ascii.eqb_neq. by rewrite lower_char_slash.
Qed.

Lemma count_lower_dot s : PyStr.count "." (PyStr.lower s) = PyStr.count "." s.
Proof.
  induction s as [| c s IH]; simpl; [done |].
  rewrite eqb_lower_dot, IH. done.
Qed.

Lemma count_app c a b :
  PyStr.count c (a ++ b) = (PyStr.count c a + PyStr.count c b)%nat.
Proof.
  induction a as [| d a IH]; simpl; [done |].
  destruct (Ascii.eqb d c); simpl; by rewrite IH.
Qed.

(** No piece of a split holds the separator. *)
Lemma count_split c s : Forall (λ w, PyStr.count c w = 0%nat) (PyStr.split c s).
Proof.
  induction s as [| d s IH]; simpl.
  - by repeat constructor.
  - destruct (Ascii.eqb d c) eqn:E.
    + by constructor.
    + destruct (PyStr.split c s) as [| w ws]; inversion IH; subst;
        repeat constructor; simpl; rewrite ?E; done.
Qed.

(** Every suffix of a path is one dot followed by dot-free text. *)
Lemma suffixes_one_dot p :
  Forall (λ s, PyStr.count "." s = 1%nat) (PurePath.suffixes p).
Proof.
  unfold PurePath.suffixes.
  destruct (PyStr.endswith _ _); [constructor |].
  apply Forall_fmap.
  pose proof (count_split "." (PyStr.lstrip "." (PurePath.name p))) as H.
  destruct (PyStr.split _ _) as [| w ws]; simpl; [constructor |].
  inversion H as [| ? ? _ Hws]; subst.
  eapply Forall_impl; [exact Hws |].
  intros s Hs. simpl. by rewrite Hs.
Qed.

Lemma count_join_one_dot l :
  Forall (λ s, PyStr.count "." s = 1%nat) l →
  PyStr.count "." (PyStr.join l) = length l.
Proof.
  induction 1 as [| s l Hs _ IH]; simpl; [done |].
  by rewrite count_app, Hs, IH.
Qed.

(** A negative start [-k] keeps the last [k] items, all of them when the
    list is shorter. *)
Lemma slice_from_neg {A} (l : list A) (k : nat) :
  (0 < k)%nat →
  PyStr.slice_from l (- Z.of_nat k) = drop (length l - k) l.
Proof.
  intros Hk. unfold PyStr.slice_from.
  destruct (Z.ltb_spec (- Z.of_nat k) 0) as [_ | ?]; [| lia].
  f_equal. lia.
Qed.

Lemma range_neg_elem (m : nat) (i : Z) :
  i ∈ PyStr.range (- Z.of_nat m) 0 ↔ - Z.of_nat m ≤ i < 0.
Proof. unfold PyStr.range. rewrite elem_of_seqZ. lia. Qed.

(** The loop indices around [-k]. *)
Lemma range_neg_split (m k : nat) :
  (1 ≤ k ≤ m)%nat →
  PyStr.range (- Z.of_nat m) 0
  = (PyStr.range (- Z.of_nat m) (- Z.of_nat k)
     ++ (- Z.of_nat k) :: PyStr.range (- Z.of_nat k + 1) 0)%list.
Proof.
  intros Hk. unfold PyStr.range.
  replace (0 - - Z.of_nat m) with ((- Z.of_nat k - - Z.of_nat m) + Z.of_nat k) by lia.
  rewrite seqZ_app by lia.
  f_equal.
  replace (- Z.of_nat m + (- Z.of_nat k - - Z.of_nat m)) with (- Z.of_nat k) by lia.
  rewrite seqZ_cons by lia.
  f_equal. f_equal; lia.
Qed.

(** Lower-casing a path lower-cases each of its suffixes: no character
    becomes or stops being a dot or a slash. *)
Lemma split_lower c s :
  (∀ d, Ascii.eqb (PyStr.lower_char d) c = Ascii.eqb d c) →
  PyStr.split c (PyStr.lower s) = map PyStr.lower (PyStr.split c s).
Proof.
  intros Hc. induction s as [| d s IH]; simpl; [done |].
  rewrite Hc, IH. destruct (Ascii.eqb d c); [done |].
  by destruct (PyStr.split c s).
Qed.

Lemma lower_eq_empty s : PyStr.lower s = EmptyString ↔ s = EmptyString.
Proof. by destruct s. Qed.

Lemma lower_eq_dot s : PyStr.lower s = "." ↔ s = ".".
Proof.
  destruct s as [| c [| d s]]; simpl; try done.
  split; intros [= H]; f_equal.
  - by apply lower_char_dot.
  - by apply lower_char_dot in H.
Qed.

Lemma filter_parts_lower (l : list string) :
  filter (λ s, s ≠ EmptyString ∧ s ≠ ".") (map PyStr.lower l)
  = map PyStr.lower (filter (λ s, s ≠ EmptyString ∧ s ≠ ".") l).
Proof.
  induction l as [| x l IH]; [done |].
  change (map PyStr.lower (x :: l)) with (PyStr.lower x :: map PyStr.lower l).
  rewrite !filter_cons, IH.
  destruct (decide (x ≠ EmptyString ∧ x ≠ ".")) as [Hx | Hx];
    destruct (decide (PyStr.lower x ≠ EmptyString ∧ PyStr.lower x ≠ "."))
      as [Hlx | Hlx]; try done; exfalso.
  - apply Hlx. rewrite lower_eq_empty, lower_eq_dot. exact Hx.
  - apply Hx. rewrite lower_eq_empty, lower_eq_dot in Hlx. exact Hlx.
Qed.

Lemma last_lower (l : list string) :
  List.last (map PyStr.lower l) EmptyString = PyStr.lower (List.last l EmptyString).
Proof.
  induction l as [| x [| y l] IH]; [done | done | exact IH].
Qed.

Lemma name_lower p : PurePath.name (PyStr.lower p) = PyStr.lower (PurePath.name p).
Proof.
  unfold PurePath.name.
  rewrite (split_lower "/") by apply eqb_lower_slash.
  by rewrite filter_parts_lower, last_lower.
Qed.

Lemma endswith_lower_dot s :
  PyStr.endswith "." (PyStr.lower s) = PyStr.endswith "." s.
Proof.
  induction s as [| c [| d s] IH]; [done | |].
  - simpl. apply eqb_lower_dot.
  - exact IH.
Qed.

Lemma lstrip_lower_dot s :
  PyStr.lstrip "." (PyStr.lower s) = PyStr.lower (PyStr.lstrip "." s).
Proof.
  induction s as [| c s IH]; simpl; [done |].
  rewrite eqb_lower_dot. by destruct (Ascii.eqb c ".").
Qed.

Lemma suffixes_lower p :
  PurePath.suffixes (PyStr.lower p) = map PyStr.lower (PurePath.suffixes p).
Proof.
  unfold PurePath.suffixes.
  rewrite name_lower, endswith_lower_dot.
  destruct (PyStr.endswith "." (PurePath.name p)); [done |].
  rewrite lstrip_lower_dot, (split_lower ".") by apply eqb_lower_dot.
  destruct (PyStr.split "." _) as [| w ws]; [done |]. simpl.
  rewrite !map_map. done.
Qed.

(** The text of a list shows the text of each of its items. *)
Lemma join_comma_repr_elem (l : list string) s :
  s ∈ l →
  ∃ before after,
    PyStr.join_comma (map PyStr.repr l) = before ++ PyStr.repr s ++ after.
Proof.
  induction 1 as [s l | s y l Hs IH].
  - destruct l as [| y l].
    + exists EmptyString, EmptyString. simpl. by rewrite str_app_nil_r.
    + exists EmptyString, (", " ++ PyStr.join_comma (map PyStr.repr (y :: l))). done.
  - destruct IH as (b & a & IH). destruct l as [| z l]; [inversion Hs |].
    exists (PyStr.repr y ++ ", " ++ b), a.
    change (PyStr.join_comma (map PyStr.repr (y :: z :: l)))
      with (PyStr.repr y ++ ", " ++ PyStr.join_comma (map PyStr.repr (z :: l))).
    rewrite IH. by rewrite !str_app_assoc.
Qed.

End StringFacts.

(** ** The loop of the dispatcher *)

Section DispatchFacts.
Context `{W : World}.

Implicit Types (R S G : gmap string callable) (sfx : list string).

Lemma read_raw_for_app R sfx l1 l2 :
  read_raw_for R sfx (l1 ++ l2)%list
  = match read_raw_for R sfx l1 with
    | Some found => Some found
    | None => read_raw_for R sfx l2
    end.
Proof.
  induction l1 as [| i l1 IH]; simpl; [done |].
  by destruct (R !! candidate sfx i).
Qed.

Lemma read_raw_for_None R sfx l :
  read_raw_for R sfx l = None ↔ ∀ i, i ∈ l → R !! candidate sfx i = None.
Proof.
  induction l as [| i l IH]; simpl.
  - split; [intros _ j Hj; inversion Hj | done].
  - destruct (R !! candidate sfx i) eqn:E.
    + split; [done |]. intros H. specialize (H i (list_elem_of_here _ _)). congruence.
    + rewrite IH. split.
      * intros H j Hj. inversion Hj; subst; auto.
      * intros H j Hj. apply H. by constructor.
Qed.

Lemma read_raw_for_Some R sfx l ext reader :
  read_raw_for R sfx l = Some (ext, reader) →
  R !! ext = Some reader ∧ ∃ i, i ∈ l ∧ ext = candidate sfx i.
Proof.
  induction l as [| i l IH]; simpl; [done |].
  destruct (R !! candidate sfx i) eqn:E.
  - intros [= <- <-]. split; [done |]. exists i. split; [constructor | done].
  - intros H. destruct (IH H) as [? (j & ? & ?)]. split; [done |].
    exists j. split; [by constructor | done].
Qed.

(** The loop leaves at the first index whose candidate is registered. *)
Lemma read_raw_for_first R sfx l1 i l2 reader :
  (∀ j, j ∈ l1 → R !! candidate sfx j = None) →
  R !! candidate sfx i = Some reader →
  read_raw_for R sfx (l1 ++ i :: l2)%list = Some (candidate sfx i, reader).
Proof.
  intros Hl1 Hi. rewrite read_raw_for_app.
  apply read_raw_for_None in Hl1. rewrite Hl1. simpl. by rewrite Hi.
Qed.


Lemma maxsuffixes_nonempty S :
  S ≠ ∅ → ∃ m, maxsuffixes S = inr m.
Proof.
  intros Hne. unfold maxsuffixes, py_max.
  destruct (map_to_list S) as [| kv l] eqn:E.
  - by apply map_to_list_empty_iff in E.
  - simpl. eauto.
Qed.

Lemma read_raw_in_resolve S R fname args kwargs :
  read_raw_in S R fname args kwargs
  = bind (resolve S R fname) (λ found,
      match found with
      | Some (ext, reader) => call reader fname args kwargs
      | None => raise (ValueError (unknown_file_type fname))
      end).
Proof.
  unfold read_raw_in, resolve, unknown_file_type.
  destruct (maxsuffixes S); reflexivity.
Qed.

(** The loop runs to its end, and the error after it is raised, when no
    candidate within the bound is a key. *)
Lemma read_raw_in_unknown S R fname args kwargs (m : nat) :
  maxsuffixes S = inr m →
  (∀ k : nat, (1 ≤ k ≤ m)%nat →
              R !! candidate (PurePath.suffixes fname) (- Z.of_nat k) = None) →
  read_raw_in S R fname args kwargs
  = inl (ValueError ("Unknown file type "
                     ++ PyStr.str_list (PurePath.suffixes fname) ++ ".")).
Proof.
  intros Hm Hnone.
  unfold read_raw_in. rewrite Hm. simpl.
  replace (read_raw_for R _ _) with (@None (string * callable)); [done |].
  symmetry. apply read_raw_for_None. intros i Hi.
  apply range_neg_elem in Hi.
  replace i with (- Z.of_nat (Z.to_nat (- i))) by lia.
  apply Hnone. lia.
Qed.

(** A candidate has as many dots as suffixes went into it. *)
Lemma candidate_dots fname (k : nat) :
  (0 < k)%nat →
  PyStr.count "." (candidate (PurePath.suffixes fname) (- Z.of_nat k))
  = (k `min` length (PurePath.suffixes fname))%nat.
Proof.
  intros Hk. unfold candidate.
  rewrite count_lower_dot, slice_from_neg by done.
  rewrite count_join_one_dot.
  - rewrite length_drop. lia.
  - apply Forall_drop, suffixes_one_dot.
Qed.

End DispatchFacts.

(** ** The registries of the module *)

Section RegistryFacts.
Context `{W : World}.

Lemma dict_update_lookup_Some {A} (d : gmap string A) items k v :
  dict_update d items !! k = Some v → (k, v) ∈ items ∨ d !! k = Some v.
Proof.
  revert d. induction items as [| [k' v'] items IH]; intros d; simpl; [by right |].
  intros H. apply IH in H as [H | H]; [left; by constructor |].
  rewrite lookup_insert in H. simpl in H. case_decide; [| by right].
  left. injection H as <-. subst. constructor.
Qed.

Lemma dict_of_lookup_Some {A} (items : list (string * A)) k v :
  dict_of items !! k = Some v → (k, v) ∈ items.
Proof.
  intros H. apply dict_update_lookup_Some in H as [H | H]; [done |].
  by rewrite lookup_empty in H.
Qed.

Lemma dict_merge_lookup {A} (a b : gmap string A) k :
  dict_merge a b !! k = match b !! k with Some y => Some y | None => a !! k end.
Proof.
  unfold dict_merge. rewrite lookup_union.
  by destruct (b !! k), (a !! k).
Qed.

Lemma supported_keys k reader :
  supported !! k = Some reader →
  k ∈ [".edf"; ".bdf"; ".gdf"; ".vhdr"; ".fif"; ".fif.gz"; ".set"; ".cnt";
       ".mff"; ".nxe"; ".hdr"; ".npy"; ".xdf"; ".xdfz"; ".xdf.gz"].
Proof.
  unfold supported. intros H.
  assert (Hin : (k, reader) ∈
    [ (".edf", Fn (External read_raw_edf)); (".bdf", Fn (External read_raw_bdf));
      (".gdf", Fn (External read_raw_gdf)); (".vhdr", Fn (External read_raw_brainvision));
      (".fif", Fn (External read_raw_fif)); (".fif.gz", Fn (External read_raw_fif));
      (".set", Fn (External read_raw_eeglab)); (".cnt", Fn (External read_raw_cnt));
      (".mff", Fn (External read_raw_egi)); (".nxe", Fn (External read_raw_eximia));
      (".hdr", Fn (External read_raw_nirx)); (".npy", Fn ReadNumpy);
      (".xdf", Fn (External read_raw_xdf)); (".xdfz", Fn (External read_raw_xdf));
      (".xdf.gz", Fn (External read_raw_xdf)) ]).
  { destruct have_pyxdf.
    - apply dict_update_lookup_Some in H as [H | H].
      + do 12 apply list_elem_of_further. exact H.
      + apply dict_of_lookup_Some in H.
        repeat (apply elem_of_cons in H as [-> | H]); [.. | inversion H];
          repeat constructor.
    - apply dict_of_lookup_Some in H.
      repeat (apply elem_of_cons in H as [-> | H]); [.. | inversion H];
        repeat constructor. }
  apply (list_elem_of_fmap_2 fst) in Hin. exact Hin.
Qed.

Lemma suggested_entries k reader :
  suggested !! k = Some reader →
  (k = ".vmrk" ∨ k = ".eeg")
  ∧ reader = Partial ReadUnsupported (dict_of [("suggest", VStr ".vhdr")]).
Proof.
  intros H. apply dict_of_lookup_Some in H.
  repeat (apply elem_of_cons in H as [[= -> ->] | H]); [.. | inversion H]; auto.
Qed.

Lemma supported_not_suggested k :
  is_Some (supported !! k) → suggested !! k = None.
Proof.
  intros [reader H]. apply supported_keys in H.
  repeat (apply elem_of_cons in H as [-> | H]); [.. | inversion H];
    vm_compute; reflexivity.
Qed.

Lemma readers_lookup k :
  readers !! k
  = match suggested !! k with Some u => Some u | None => supported !! k end.
Proof. apply dict_merge_lookup. Qed.

Lemma readers_keys_lower k : is_Some (readers !! k) → PyStr.lower k = k.
Proof.
  rewrite readers_lookup. intros [reader H].
  destruct (suggested !! k) as [u |] eqn:E.
  - apply suggested_entries in E as [[-> | ->] _]; reflexivity.
  - apply supported_keys in H.
    repeat (apply elem_of_cons in H as [-> | H]); [.. | inversion H]; reflexivity.
Qed.

Lemma readers_no_empty_key : readers !! EmptyString = None.
Proof.
  rewrite readers_lookup. unfold supported.
  destruct have_pyxdf; vm_compute; reflexivity.
Qed.

Lemma maxsuffixes_supported : maxsuffixes supported = inr 2%nat.
Proof. unfold supported. destruct have_pyxdf; vm_compute; reflexivity. Qed.

End RegistryFacts.

(** ** The dispatcher *)

Section Dispatcher.
Context `{W : World}.

Implicit Types (R S G : gmap string callable).
Implicit Types (args : list (value Obj)) (kwargs : gmap string (value Obj)).

(** C1, as amended.  When the last [k1] suffixes of a file name form a
    registered key, with [k1] no greater than the bound (the largest number
    of dots in a key of [supported]), a shorter tail of [k2 < k1] suffixes
    is registered too, and [k1] is the longest registered length within the
    bound, then [read_raw] settles on the longer key, which is a different
    key, and calls exactly the reader stored under it: the loop runs from
    the longest supported length down and leaves at the first registered
    candidate. *)
Theorem longest_suffix_dispatched S R fname args kwargs (m k1 k2 : nat) reader :
  maxsuffixes S = inr m →
  (1 ≤ k2 < k1)%nat →
  (k1 ≤ m)%nat →
  (k1 ≤ length (PurePath.suffixes fname))%nat →
  R !! candidate (PurePath.suffixes fname) (- Z.of_nat k1) = Some reader →
  is_Some (R !! candidate (PurePath.suffixes fname) (- Z.of_nat k2)) →
  (∀ j : nat, (k1 < j ≤ m)%nat →
              R !! candidate (PurePath.suffixes fname) (- Z.of_nat j) = None) →
  candidate (PurePath.suffixes fname) (- Z.of_nat k1)
    ≠ candidate (PurePath.suffixes fname) (- Z.of_nat k2)
  ∧ resolve S R fname
    = inr (Some (candidate (PurePath.suffixes fname) (- Z.of_nat k1), reader))
  ∧ read_raw_in S R fname args kwargs = call reader fname args kwargs.
Proof.
  intros Hm Hk Hk1 Hlen Hlong _ Hnone.
  assert (Hres : resolve S R fname
    = inr (Some (candidate (PurePath.suffixes fname) (- Z.of_nat k1), reader))).
  { unfold resolve. rewrite Hm. simpl. f_equal. f_equal.
    rewrite (range_neg_split m k1) by lia.
    apply read_raw_for_first; [| done].
    intros i Hi. unfold PyStr.range in Hi. apply elem_of_seqZ in Hi.
    replace i with (- Z.of_nat (Z.to_nat (- i))) by lia.
    apply Hnone. lia. }
  split; [| split; [done |]].
  - intros Heq. apply (f_equal (PyStr.count ".")) in Heq.
    rewrite !candidate_dots in Heq by lia. lia.
  - rewrite read_raw_in_resolve, Hres. reflexivity.
Qed.

(** C5.  When no candidate of any tried length is registered, [read_raw]
    raises the unknown-file-type [ValueError], whatever the options, and
    the message shows every suffix of the file name, written as Python
    writes a string. *)
Theorem unknown_format_reported S R fname args kwargs (m : nat) :
  maxsuffixes S = inr m →
  (∀ k : nat, (1 ≤ k ≤ m)%nat →
              R !! candidate (PurePath.suffixes fname) (- Z.of_nat k) = None) →
  read_raw_in S R fname args kwargs
    = inl (ValueError ("Unknown file type "
                       ++ PyStr.str_list (PurePath.suffixes fname) ++ "."))
  ∧ ∀ s, s ∈ PurePath.suffixes fname →
      ∃ before after,
        "Unknown file type " ++ PyStr.str_list (PurePath.suffixes fname) ++ "."
        = before ++ PyStr.repr s ++ after.
Proof.
  intros Hm Hnone. split.
  - by apply read_raw_in_unknown with m.
  - intros s Hs.
    destruct (join_comma_repr_elem _ _ Hs) as (b & a & Hin).
    exists ("Unknown file type [" ++ b), (a ++ "].").
    unfold PyStr.str_list. rewrite Hin.
    rewrite !str_app_assoc. reflexivity.
Qed.

(** A file name without any suffix is of unknown type for the module. *)
Lemma read_raw_without_suffix fname args kwargs :
  PurePath.suffixes fname = [] →
  read_raw fname args kwargs = inl (ValueError "Unknown file type [].").
Proof.
  intros Hsfx. unfold read_raw.
  rewrite (read_raw_in_unknown _ _ _ _ _ 2 maxsuffixes_supported).
  - by rewrite Hsfx.
  - intros k Hk. rewrite Hsfx. unfold candidate.
    rewrite slice_from_neg, drop_nil by lia. apply readers_no_empty_key.
Qed.


(** C2, as amended.  The merge [{**supported, **suggested}] keeps, for a
    key present in both, the entry of [suggested]; a key of [supported]
    alone keeps its own entry.  In the registries the module builds no
    suffix is a key of both, so [readers] maps every supported suffix to its
    supported reader. *)
Theorem merged_registry_lookup :
  (∀ S G k, dict_merge S G !! k
            = match G !! k with Some u => Some u | None => S !! k end)
  ∧ (∀ k, is_Some (supported !! k) → suggested !! k = None)
  ∧ (∀ k reader, supported !! k = Some reader → readers !! k = Some reader).
Proof.
  split; [| split].
  - intros. apply dict_merge_lookup.
  - apply supported_not_suggested.
  - intros k reader H. rewrite readers_lookup.
    by rewrite supported_not_suggested.
Qed.

Lemma candidate_lower sfx i :
  candidate (map PyStr.lower sfx) i = candidate sfx i.
Proof.
  unfold candidate, PyStr.slice_from. rewrite length_map.
  change (map PyStr.lower sfx) with (PyStr.lower <$> sfx).
  rewrite <- fmap_drop.
  change (PyStr.lower <$> ?l) with (map PyStr.lower l).
  by rewrite <- lower_join, lower_idem.
Qed.

Lemma read_raw_for_lower R sfx indices :
  read_raw_for R (map PyStr.lower sfx) indices = read_raw_for R sfx indices.
Proof.
  induction indices as [| i l IH]; simpl; [done |].
  by rewrite candidate_lower, IH.
Qed.

Lemma resolve_same_suffixes S R fname fname' :
  PurePath.suffixes fname' = map PyStr.lower (PurePath.suffixes fname) →
  resolve S R fname' = resolve S R fname.
Proof.
  intros Hsfx. unfold resolve. destruct (maxsuffixes S); [done |]. simpl.
  by rewrite Hsfx, read_raw_for_lower.
Qed.

(** C9.  Two file names whose suffixes differ only by letter case give the
    same candidates and so resolve to the same key and the same reader,
    because each candidate is lower-cased before it is looked up; in
    particular a name resolves as its lower-cased form does; and every key
    of the module's registry is lower case. *)
Theorem suffix_match_ignores_case S R fname fname' :
  PurePath.suffixes fname' = map PyStr.lower (PurePath.suffixes fname) →
  (∀ i, candidate (PurePath.suffixes fname') i
        = candidate (PurePath.suffixes fname) i)
  ∧ resolve S R fname' = resolve S R fname
  ∧ resolve S R (PyStr.lower fname) = resolve S R fname
  ∧ (∀ k, is_Some (readers !! k) → PyStr.lower k = k).
Proof.
  intros Hsfx. split; [| split; [| split]].
  - intros i. by rewrite Hsfx, candidate_lower.
  - by apply resolve_same_suffixes.
  - apply resolve_same_suffixes, suffixes_lower.
  - apply readers_keys_lower.
Qed.

Lemma resolve_Some S R fname ext reader :
  resolve S R fname = inr (Some (ext, reader)) → R !! ext = Some reader.
Proof.
  unfold resolve. destruct (maxsuffixes S); [done |]. simpl.
  intros [= H]. by apply read_raw_for_Some in H as [? _].
Qed.

(** What [read_raw] does once it has settled on a suggested entry. *)
Lemma read_raw_suggested fname ext reader args kwargs :
  resolve supported readers fname = inr (Some (ext, reader)) →
  is_Some (suggested !! ext) →
  read_raw fname args kwargs
  = call_func ReadUnsupported fname args
      (dict_merge (dict_of [("suggest", VStr ".vhdr")]) kwargs).
Proof.
  intros Hres [u Hu].
  unfold read_raw. rewrite read_raw_in_resolve, Hres. simpl.
  apply resolve_Some in Hres. rewrite readers_lookup, Hu in Hres.
  injection Hres as <-.
  apply suggested_entries in Hu as [_ ->]. reflexivity.
Qed.


(** C10.  The suffix shown by the unsupported-file-type message is the
    join of all the suffixes of the file name, computed anew from the name
    and not lower-cased; it is not the registry key that was matched
    whenever the name has more suffixes than the key has dots. *)
Theorem unsupported_message_shows_all_suffixes fname ext reader kwargs :
  resolve supported readers fname = inr (Some (ext, reader)) →
  is_Some (suggested !! ext) →
  kwargs !! "fname" = None →
  (∃ hint, read_raw fname [] kwargs
           = inl (ValueError ("Unsupported file type ("
                              ++ PyStr.join (PurePath.suffixes fname)
                              ++ ")." ++ hint)))
  ∧ ((PyStr.count "." ext < length (PurePath.suffixes fname))%nat →
     PyStr.join (PurePath.suffixes fname) ≠ ext).
Proof.
  intros Hres Hsug Hf. split.
  - rewrite (read_raw_suggested _ _ _ _ _ Hres Hsug).
    unfold call_func.
    rewrite decide_False.
    2:{ rewrite dict_merge_lookup, Hf. vm_compute. by intros [? ?]. }
    unfold _read_unsupported.
    destruct (dict_get _ _);
      [ exists EmptyString; by rewrite str_app_nil_r
      | eexists; unfold raise; do 2 f_equal; rewrite !str_app_assoc; reflexivity .. ].
  - intros Hlt Heq. apply (f_equal (PyStr.count ".")) in Heq.
    rewrite count_join_one_dot in Heq by apply suffixes_one_dot. lia.
Qed.

End Dispatcher.

(** ** The two readers of the module *)

Section Handlers.
Context `{W : World}.

Implicit Types (args : list (value Obj)) (kwargs : gmap string (value Obj)).

(** C4, as amended.  Called with a file name and named options only, the
    reporter raises the unsupported-file-type [ValueError].  Of the named
    options it reads [suggest] alone: its value, unless it is [None], is
    the format the message recommends; every other option is ignored.
    Whatever the arguments, the call never returns a value. *)
Theorem unsupported_reporter_fails fname kwargs :
  kwargs !! "fname" = None →
  call_func ReadUnsupported fname [] kwargs
  = inl (ValueError
           ("Unsupported file type (" ++ PyStr.join (PurePath.suffixes fname) ++ ")."
            ++ match dict_get kwargs "suggest" with
               | VNone => EmptyString
               | v => " Try reading a " ++ format v ++ " file instead."
               end))
  ∧ (∀ args' kwargs', ∃ e, call_func ReadUnsupported fname args' kwargs' = inl e)
  ∧ (∀ keywords args' kwargs',
       call (Partial ReadUnsupported keywords) fname args' kwargs'
       = call_func ReadUnsupported fname args' (dict_merge keywords kwargs')).
Proof.
  intros Hf. split; [| split].
  - unfold call_func. rewrite decide_False by (rewrite Hf; by intros [? ?]).
    unfold _read_unsupported, raise. do 2 f_equal.
    destruct (dict_get kwargs "suggest");
      rewrite ?str_app_nil_r, ?str_app_assoc; reflexivity.
  - intros args' kwargs'. unfold call_func, _read_unsupported, raise.
    case_decide; [eauto |]. destruct args'; eauto.
  - reflexivity.
Qed.

(** C7.  Once the array is loaded, [read_numpy] raises the [ValueError]
    that states the number of dimensions found exactly when that number is
    not 2; on a two-dimensional array it raises no [ValueError] at all. *)
Theorem read_numpy_dimension_check fname sfreq args kwargs npy :
  np_load fname = inr npy →
  (ndim npy ≠ 2%nat →
   read_numpy fname sfreq args kwargs
   = inl (ValueError ("Array must have two dimensions (got "
                      ++ PyStr.str_nat (ndim npy) ++ ").")))
  ∧ (ndim npy = 2%nat →
     ∀ msg, read_numpy fname sfreq args kwargs ≠ inl (ValueError msg)).
Proof.
  intros Hload. unfold read_numpy. rewrite Hload. simpl. split.
  - intros Hnd. by rewrite decide_True.
  - intros Hnd msg. rewrite decide_False by (intros ?; done).
    unfold ndim in Hnd.
    destruct (shape npy) as [| rows [| cols [| ? ?]]]; try discriminate.
    simpl.
    destruct (mne_create_info rows sfreq) as [e | info]; simpl; [done |].
    destruct (mne_RawArray npy info) as [e | r]; simpl; done.
Qed.


End Handlers.

(** ** More on the resolution of a file name *)

Section Resolution.
Context `{W : World}.

Implicit Types (R S G : gmap string callable) (sfx : list string).
Implicit Types (args : list (value Obj)) (kwargs : gmap string (value Obj)).

Lemma range_neg_succ (m : nat) :
  PyStr.range (- Z.of_nat (S m)) 0
  = (- Z.of_nat (S m)) :: PyStr.range (- Z.of_nat m) 0.
Proof.
  unfold PyStr.range. rewrite seqZ_cons by lia. f_equal. f_equal; lia.
Qed.

Lemma read_raw_for_range_inv R sfx (m : nat) ext reader :
  read_raw_for R sfx (PyStr.range (- Z.of_nat m) 0) = Some (ext, reader) →
  ∃ k : nat, (1 ≤ k ≤ m)%nat
    ∧ ext = candidate sfx (- Z.of_nat k)
    ∧ R !! ext = Some reader
    ∧ ∀ j : nat, (k < j ≤ m)%nat → R !! candidate sfx (- Z.of_nat j) = None.
Proof.
  induction m as [| m IH].
  - discriminate.
  - rewrite range_neg_succ. simpl.
    destruct (R !! candidate sfx (- Z.of_nat (S m))) as [r |] eqn:E.
    + intros [= <- <-]. exists (S m). repeat split; [lia | lia | done | intros; lia].
    + intros H. destruct (IH H) as (k & Hk & Hext & Hr & Hnone).
      exists k. repeat split; [lia | lia | done | done |].
      intros j Hj. destruct (decide (j = S m)) as [-> | Hne]; [done |].
      apply Hnone. lia.
Qed.

Lemma read_raw_for_ext R sfx sfx' indices :
  (∀ i, i ∈ indices → candidate sfx i = candidate sfx' i) →
  read_raw_for R sfx indices = read_raw_for R sfx' indices.
Proof.
  induction indices as [| i l IH]; intros H; simpl; [done |].
  rewrite (H i) by constructor.
  rewrite IH; [done |]. intros j Hj. apply H. by constructor.
Qed.

(** X1.  The resolver finds a key exactly when that key is the registered
    candidate of the greatest length within the bound. *)
Theorem resolve_longest_registered S R fname (m : nat) ext reader :
  maxsuffixes S = inr m →
  resolve S R fname = inr (Some (ext, reader))
  ↔ ∃ k : nat, (1 ≤ k ≤ m)%nat
      ∧ ext = candidate (PurePath.suffixes fname) (- Z.of_nat k)
      ∧ R !! ext = Some reader
      ∧ ∀ j : nat, (k < j ≤ m)%nat →
          R !! candidate (PurePath.suffixes fname) (- Z.of_nat j) = None.
Proof.
  intros Hm. unfold resolve. rewrite Hm. simpl. split.
  - intros [= H]. by apply read_raw_for_range_inv.
  - intros (k & Hk & -> & Hr & Hnone). do 2 f_equal.
    rewrite (range_neg_split m k) by lia.
    apply read_raw_for_first; [| done].
    intros i Hi. unfold PyStr.range in Hi. apply elem_of_seqZ in Hi.
    replace i with (- Z.of_nat (Z.to_nat (- i))) by lia.
    apply Hnone. lia.
Qed.

Lemma drop_last_part {A} (l : list A) (m k : nat) :
  (k ≤ m)%nat →
  drop (length (drop (length l - m) l) - k) (drop (length l - m) l)
  = drop (length l - k) l.
Proof.
  intros Hk. rewrite drop_drop, length_drop. f_equal. lia.
Qed.

(** X2.  Only the last [maxsuffixes] suffixes of a name take part: two names
    that agree on them resolve alike. *)
Theorem resolve_reads_last_suffixes S R fname fname' (m : nat) :
  maxsuffixes S = inr m →
  drop (length (PurePath.suffixes fname) - m) (PurePath.suffixes fname)
  = drop (length (PurePath.suffixes fname') - m) (PurePath.suffixes fname') →
  resolve S R fname = resolve S R fname'.
Proof.
  intros Hm Hlast. unfold resolve. rewrite Hm. simpl. f_equal.
  apply read_raw_for_ext. intros i Hi. apply range_neg_elem in Hi.
  replace i with (- Z.of_nat (Z.to_nat (- i))) by lia.
  unfold candidate. rewrite !slice_from_neg by lia.
  rewrite <- (drop_last_part (PurePath.suffixes fname) m) by lia.
  rewrite <- (drop_last_part (PurePath.suffixes fname') m) by lia.
  by rewrite Hlast.
Qed.

Lemma candidate_single s (k : nat) :
  (0 < k)%nat → candidate [s] (- Z.of_nat k) = PyStr.lower s.
Proof.
  intros Hk. unfold candidate. rewrite slice_from_neg by done.
  replace (length [s] - k)%nat with 0%nat by (simpl; lia).
  simpl. by rewrite str_app_nil_r.
Qed.

(** X3.  For a name with a single suffix the dispatch is one lookup of that
    suffix, lower-cased: its reader is called if there is one, and the
    unknown-file-type error is raised if there is none. *)
Theorem single_suffix_is_looked_up S R fname s args kwargs (m : nat) :
  PurePath.suffixes fname = [s] →
  maxsuffixes S = inr m →
  (1 ≤ m)%nat →
  read_raw_in S R fname args kwargs
  = match R !! PyStr.lower s with
    | Some reader => call reader fname args kwargs
    | None => inl (ValueError ("Unknown file type " ++ PyStr.str_list [s] ++ "."))
    end.
Proof.
  intros Hsfx Hm Hpos.
  destruct (R !! PyStr.lower s) as [reader |] eqn:E.
  - unfold read_raw_in. rewrite Hm, Hsfx. simpl.
    destruct m as [| m]; [lia |].
    rewrite range_neg_succ. simpl.
    rewrite candidate_single by lia. by rewrite E.
  - rewrite (read_raw_in_unknown S R fname args kwargs m Hm).
    + by rewrite Hsfx.
    + intros k Hk. rewrite Hsfx, candidate_single by lia. exact E.
Qed.

(** X4.  No file resolves to a key that is not in lower case: an entry stored
    under such a key can never be reached. *)
Theorem mixed_case_key_unreachable S R fname k reader :
  PyStr.lower k ≠ k →
  resolve S R fname ≠ inr (Some (k, reader)).
Proof.
  intros Hk Hres. apply Hk.
  unfold resolve in Hres. destruct (maxsuffixes S); [done |].
  simpl in Hres. injection Hres as Hres.
  apply read_raw_for_Some in Hres as [_ (i & _ & ->)].
  unfold candidate. apply lower_idem.
Qed.

Lemma split_not_nil c s : PyStr.split c s ≠ [].
Proof.
  destruct s as [| d s]; simpl; [done |].
  destruct (Ascii.eqb d c); [done |]. by destruct (PyStr.split c s).
Qed.

Lemma split_app_sep c a b :
  PyStr.split c (a ++ String c b) = (PyStr.split c a ++ PyStr.split c b)%list.
Proof.
  induction a as [| d a IH].
  - simpl. by rewrite Ascii.eqb_refl.
  - rewrite str_app_cons. simpl. rewrite IH.
    destruct (Ascii.eqb d c); [done |].
    pose proof (split_not_nil c a).
    by destruct (PyStr.split c a).
Qed.

Lemma split_no_sep c s : PyStr.count c s = 0%nat → PyStr.split c s = [s].
Proof.
  induction s as [| d s IH]; simpl; [done |].
  destruct (Ascii.eqb d c); [done |].
  intros H. by rewrite IH.
Qed.

Lemma last_snoc_default (l : list string) x d : List.last (l ++ [x]) d = x.
Proof. apply List.last_last. Qed.

(** X5.  The directory part of a path plays no role: the suffixes, and so the
    resolution, are those of the last component alone, even when a
    directory name has dots in it. *)
Theorem directory_is_ignored S R dir base :
  PyStr.count "/" base = 0%nat →
  base ≠ EmptyString →
  base ≠ "." →
  PurePath.suffixes (dir ++ String "/" base) = PurePath.suffixes base
  ∧ resolve S R (dir ++ String "/" base) = resolve S R base.
Proof.
  intros Hslash Hne Hdot.
  assert (Hname : ∀ p, PyStr.split "/" p = (removelast (PyStr.split "/" p) ++ [base])%list →
                       PurePath.name p = base).
  { intros p Hp. unfold PurePath.name. rewrite Hp, filter_app.
    rewrite filter_cons_True by done. rewrite filter_nil. apply last_snoc_default. }
  assert (Hsfx : PurePath.suffixes (dir ++ String "/" base) = PurePath.suffixes base).
  { unfold PurePath.suffixes. rewrite !Hname; [done | |].
    - rewrite (split_no_sep "/" base) by done. done.
    - rewrite split_app_sep, (split_no_sep "/" base) by done.
      by rewrite removelast_last. }
  split; [exact Hsfx |].
  unfold resolve. by rewrite Hsfx.
Qed.

End Resolution.

(** ** More on the registry of the module *)

(** Closes a goal with an equation [a ++ c = k] between a string of unknown
    length and two literals that cannot hold; [Ha] is a fact that rules out
    the empty [a]. *)
Ltac refute_app H Ha :=
  repeat match type of H with
  | (?a ++ _ = _) =>
      destruct a as [| ? a];
      [ exfalso; first [ discriminate H | discriminate Ha ]
      | rewrite str_app_cons in H; first [ discriminate H | injection H as _ H ] ]
  end.

Section ModuleDispatch.
Context `{W : World}.

Implicit Types (args : list (value Obj)) (kwargs : gmap string (value Obj)).

Lemma readers_keys k reader :
  readers !! k = Some reader →
  k ∈ [".vmrk"; ".eeg";
       ".edf"; ".bdf"; ".gdf"; ".vhdr"; ".fif"; ".fif.gz"; ".set"; ".cnt";
       ".mff"; ".nxe"; ".hdr"; ".npy"; ".xdf"; ".xdfz"; ".xdf.gz"].
Proof.
  rewrite readers_lookup. destruct (suggested !! k) as [u |] eqn:E.
  - intros _. apply suggested_entries in E as [[-> | ->] _]; repeat constructor.
  - intros H. apply supported_keys in H. by do 2 apply list_elem_of_further.
Qed.

Lemma candidate_snoc pre s :
  candidate (pre ++ [s])%list (-1) = PyStr.lower s.
Proof.
  change (-1) with (- Z.of_nat 1). unfold candidate.
  rewrite slice_from_neg by lia.
  replace (length (pre ++ [s]) - 1)%nat with (length pre)
    by (rewrite length_app; simpl; lia).
  rewrite drop_app_length. simpl. by rewrite str_app_nil_r.
Qed.

Lemma candidate_snoc2 pre s0 s :
  candidate (pre ++ [s0; s])%list (-2) = PyStr.lower s0 ++ PyStr.lower s.
Proof.
  change (-2) with (- Z.of_nat 2). unfold candidate.
  rewrite slice_from_neg by lia.
  replace (length (pre ++ [s0; s]) - 2)%nat with (length pre)
    by (rewrite length_app; simpl; lia).
  rewrite drop_app_length. simpl. by rewrite str_app_nil_r, lower_app.
Qed.

(** The loop of [read_raw] in the module: two rounds. *)
Lemma read_raw_two_rounds fname args kwargs :
  read_raw fname args kwargs
  = match readers !! candidate (PurePath.suffixes fname) (-2) with
    | Some reader => call reader fname args kwargs
    | None =>
        match readers !! candidate (PurePath.suffixes fname) (-1) with
        | Some reader => call reader fname args kwargs
        | None => inl (ValueError ("Unknown file type "
                                   ++ PyStr.str_list (PurePath.suffixes fname) ++ "."))
        end
    end.
Proof.
  unfold read_raw, read_raw_in. rewrite maxsuffixes_supported.
  unfold bind, ret. change (PyStr.range (- Z.of_nat 2) 0) with [-2; -1]. simpl.
  destruct (readers !! candidate (PurePath.suffixes fname) (-2)); [done |].
  by destruct (readers !! candidate (PurePath.suffixes fname) (-1)).
Qed.

(** No key of the module is another key with a suffix put in front. *)
Lemma no_key_extends_key a c reader reader' :
  PyStr.count "." a = 1%nat →
  PyStr.count "." c = 1%nat →
  readers !! c = Some reader →
  readers !! (a ++ c) = Some reader' →
  False.
Proof.
  intros Ha Hc Hkey Hlong.
  assert (Hdots : PyStr.count "." (a ++ c) = 2%nat)
    by (rewrite count_app; lia).
  apply readers_keys in Hlong. apply readers_keys in Hkey.
  remember (a ++ c) as k eqn:Hk. symmetry in Hk.
  repeat (apply elem_of_cons in Hlong as [-> | Hlong]);
    [.. | inversion Hlong]; try discriminate Hdots;
    (repeat (apply elem_of_cons in Hkey as [-> | Hkey]);
      [.. | inversion Hkey]; try discriminate Hc; refute_app Hk Ha).
Qed.

Lemma resolve_two_rounds fname :
  resolve supported readers fname
  = inr match readers !! candidate (PurePath.suffixes fname) (-2) with
        | Some reader => Some (candidate (PurePath.suffixes fname) (-2), reader)
        | None =>
            match readers !! candidate (PurePath.suffixes fname) (-1) with
            | Some reader => Some (candidate (PurePath.suffixes fname) (-1), reader)
            | None => None
            end
        end.
Proof.
  unfold resolve. rewrite maxsuffixes_supported.
  unfold bind, ret. change (PyStr.range (- Z.of_nat 2) 0) with [-2; -1]. simpl.
  destruct (readers !! candidate (PurePath.suffixes fname) (-2)); [done |].
  by destruct (readers !! candidate (PurePath.suffixes fname) (-1)).
Qed.

(** The two candidates of a name whose last suffix is registered: the
    shorter one is that suffix, and the longer one is either the same (the
    name has no other suffix) or not registered. *)
Lemma last_suffix_rounds fname s reader :
  last (PurePath.suffixes fname) = Some s →
  readers !! PyStr.lower s = Some reader →
  candidate (PurePath.suffixes fname) (-1) = PyStr.lower s
  ∧ (candidate (PurePath.suffixes fname) (-2) = PyStr.lower s
     ∨ readers !! candidate (PurePath.suffixes fname) (-2) = None).
Proof.
  intros Hlast Hkey.
  pose proof (suffixes_one_dot fname) as Hall. rewrite Forall_forall in Hall.
  assert (Hs : PyStr.count "." (PyStr.lower s) = 1%nat).
  { rewrite count_lower_dot. apply Hall.
    by apply last_Some_elem_of. }
  apply last_Some in Hlast as [pre Hpre]. rewrite Hpre in *.
  split; [apply candidate_snoc |].
  destruct (last pre) as [s0 |] eqn:Hs0.
  - right. apply last_Some in Hs0 as [pre' ->].
    rewrite <- app_assoc. simpl. rewrite candidate_snoc2.
    destruct (readers !! (PyStr.lower s0 ++ PyStr.lower s)) as [r |] eqn:E; [| done].
    exfalso. refine (no_key_extends_key _ _ _ _ _ Hs Hkey E).
    rewrite count_lower_dot. apply Hall.
    set_solver.
  - left. apply last_None in Hs0 as ->. simpl.
    change (-2) with (- Z.of_nat 2). by rewrite candidate_single by lia.
Qed.

(** X6.  In the module, a registered last suffix decides: whatever stands
    before it in the name, the reader stored under it is the one called. *)
Theorem registered_last_suffix_is_dispatched fname s reader args kwargs :
  last (PurePath.suffixes fname) = Some s →
  readers !! PyStr.lower s = Some reader →
  resolve supported readers fname = inr (Some (PyStr.lower s, reader))
  ∧ read_raw fname args kwargs = call reader fname args kwargs.
Proof.
  intros Hlast Hkey.
  destruct (last_suffix_rounds fname s reader Hlast Hkey) as [H1 [H2 | H2]].
  - rewrite resolve_two_rounds, read_raw_two_rounds, H2, Hkey. done.
  - rewrite resolve_two_rounds, read_raw_two_rounds, H2, H1, Hkey. done.
Qed.

Lemma last_suffix_decides fname s reader args kwargs :
  last (PurePath.suffixes fname) = Some s →
  readers !! PyStr.lower s = Some reader →
  read_raw fname args kwargs = call reader fname args kwargs.
Proof.
  intros Hlast Hkey.
  destruct (last_suffix_rounds fname s reader Hlast Hkey) as [H1 [H2 | H2]].
  - by rewrite read_raw_two_rounds, H2, Hkey.
  - by rewrite read_raw_two_rounds, H2, H1, Hkey.
Qed.

Lemma readers_xdf_present k :
  have_pyxdf = true →
  k ∈ [".xdf"; ".xdfz"; ".xdf.gz"] →
  readers !! k = Some (Fn (External read_raw_xdf)).
Proof.
  intros Hh Hk. rewrite readers_lookup. unfold supported. rewrite Hh.
  repeat (apply elem_of_cons in Hk as [-> | Hk]); [.. | inversion Hk];
    vm_compute; reflexivity.
Qed.

Lemma readers_keys_without_pyxdf k reader :
  have_pyxdf = false →
  readers !! k = Some reader →
  k ∈ [".vmrk"; ".eeg";
       ".edf"; ".bdf"; ".gdf"; ".vhdr"; ".fif"; ".fif.gz"; ".set"; ".cnt";
       ".mff"; ".nxe"; ".hdr"; ".npy"].
Proof.
  intros Hh. rewrite readers_lookup. destruct (suggested !! k) as [u |] eqn:E.
  - intros _. apply suggested_entries in E as [[-> | ->] _]; repeat constructor.
  - unfold supported. rewrite Hh. intros H.
    apply dict_of_lookup_Some in H.
    apply (list_elem_of_fmap_2 fst) in H. by do 2 apply list_elem_of_further.
Qed.

Lemma readers_without_pyxdf_None k :
  have_pyxdf = false →
  k ∉ [".vmrk"; ".eeg";
       ".edf"; ".bdf"; ".gdf"; ".vhdr"; ".fif"; ".fif.gz"; ".set"; ".cnt";
       ".mff"; ".nxe"; ".hdr"; ".npy"] →
  readers !! k = None.
Proof.
  intros Hh Hk. destruct (readers !! k) as [r |] eqn:E; [| done].
  exfalso. apply Hk. by apply readers_keys_without_pyxdf with r.
Qed.

(** No key of the module without pyxdf ends in [.xdf] or [.xdfz]. *)
Lemma no_key_ends_in_xdf a c :
  have_pyxdf = false →
  c = ".xdf" ∨ c = ".xdfz" →
  readers !! (a ++ c) = None.
Proof.
  intros Hh Hc. apply readers_without_pyxdf_None; [done |].
  intros Hin. remember (a ++ c) as k eqn:Hk. symmetry in Hk.
  assert (Ha : True) by done.
  destruct Hc as [-> | ->];
    (repeat (apply elem_of_cons in Hin as [-> | Hin]); [.. | inversion Hin]);
    refute_app Hk Ha.
Qed.

(** X7.  The three xdf suffixes are read by [read_raw_xdf] when pyxdf is
    installed; when it is not, such a file is of unknown type: it is not
    reported as a known but unsupported one. *)
Theorem xdf_depends_on_pyxdf fname args kwargs :
  (∃ s, last (PurePath.suffixes fname) = Some s
        ∧ (PyStr.lower s = ".xdf" ∨ PyStr.lower s = ".xdfz"))
  ∨ (∃ pre s1 s2, PurePath.suffixes fname = (pre ++ [s1; s2])%list
                  ∧ PyStr.lower s1 = ".xdf" ∧ PyStr.lower s2 = ".gz") →
  read_raw fname args kwargs
  = if have_pyxdf
    then extern (external_read read_raw_xdf fname args kwargs)
    else inl (ValueError ("Unknown file type "
                          ++ PyStr.str_list (PurePath.suffixes fname) ++ ".")).
Proof.
  intros Hname. destruct have_pyxdf eqn:Hh.
  - destruct Hname as [(s & Hlast & Hs) | (pre & s1 & s2 & Hsfx & Hs1 & Hs2)].
    + rewrite (last_suffix_decides fname s (Fn (External read_raw_xdf))); [done | done |].
      apply readers_xdf_present; [done |]. destruct Hs as [-> | ->]; set_solver.
    + rewrite read_raw_two_rounds, Hsfx, candidate_snoc2, Hs1, Hs2.
      change (".xdf" ++ ".gz") with ".xdf.gz".
      rewrite (readers_xdf_present ".xdf.gz") by (done || set_solver). done.
  - rewrite read_raw_two_rounds.
    destruct Hname as [(s & Hlast & Hs) | (pre & s1 & s2 & Hsfx & Hs1 & Hs2)].
    + apply last_Some in Hlast as [pre Hpre]. rewrite Hpre.
      rewrite candidate_snoc.
      assert (H1 : readers !! PyStr.lower s = None)
        by (apply (no_key_ends_in_xdf EmptyString); done).
      assert (H2 : readers !! candidate (pre ++ [s])%list (-2) = None).
      { destruct (last pre) as [s0 |] eqn:Hs0.
        - apply last_Some in Hs0 as [pre' ->].
          rewrite <- app_assoc. simpl. rewrite candidate_snoc2.
          by apply no_key_ends_in_xdf.
        - apply last_None in Hs0 as ->. simpl.
          change (-2) with (- Z.of_nat 2). by rewrite candidate_single by lia. }
      by rewrite H2, H1.
    + rewrite Hsfx, candidate_snoc2, Hs1, Hs2.
      change (pre ++ [s1; s2])%list with (pre ++ [s1] ++ [s2])%list.
      rewrite app_assoc, candidate_snoc, Hs2.
      assert (H2 : readers !! (".xdf" ++ ".gz") = None).
      { apply readers_without_pyxdf_None; [done |]. intros Hin.
        repeat (apply elem_of_cons in Hin as [Hin | Hin]; [discriminate Hin |]).
        inversion Hin. }
      assert (H1 : readers !! ".gz" = None).
      { apply readers_without_pyxdf_None; [done |]. intros Hin.
        repeat (apply elem_of_cons in Hin as [Hin | Hin]; [discriminate Hin |]).
        inversion Hin. }
      by rewrite H2, H1.
Qed.

Lemma suffixes_nil_of_name fname :
  PyStr.endswith "." (PurePath.name fname) = true
  ∨ PyStr.count "." (PyStr.lstrip "." (PurePath.name fname)) = 0%nat →
  PurePath.suffixes fname = [].
Proof.
  unfold PurePath.suffixes. intros [-> | H]; [done |].
  destruct (PyStr.endswith _ _); [done |].
  by rewrite split_no_sep.
Qed.

(** X8.  A name that ends in a dot, or that has no dot after its leading dots
    (a plain name, a hidden file), has no suffix and is of unknown type,
    whatever registry entries exist. *)
Theorem name_without_suffix_is_unknown fname args kwargs :
  PyStr.endswith "." (PurePath.name fname) = true
  ∨ PyStr.count "." (PyStr.lstrip "." (PurePath.name fname)) = 0%nat →
  read_raw fname args kwargs = inl (ValueError "Unknown file type [].").
Proof.
  intros H. apply read_raw_without_suffix. by apply suffixes_nil_of_name.
Qed.




(** X11.  A [.vmrk] or [.eeg] file is never read: whatever options are given,
    [read_raw] ends in a [ValueError] or a [TypeError] of its own, and no
    parser is run. *)
Theorem suggested_file_is_never_read fname s args kwargs :
  last (PurePath.suffixes fname) = Some s →
  PyStr.lower s = ".vmrk" ∨ PyStr.lower s = ".eeg" →
  (∃ msg, read_raw fname args kwargs = inl (ValueError msg))
  ∨ (∃ why, read_raw fname args kwargs = inl (TypeError why)).
Proof.
  intros Hlast Hs.
  rewrite (last_suffix_decides fname s
             (Partial ReadUnsupported (dict_of [("suggest", VStr ".vhdr")]))); [| done |].
  - simpl. unfold call_func, _read_unsupported, raise.
    case_decide; [right; eauto |].
    destruct args; [left | right]; eauto.
  - rewrite readers_lookup. destruct Hs as [-> | ->]; vm_compute; reflexivity.
Qed.

(** X12.  [read_numpy] returns a raw object only after the file was loaded, held
    a two-dimensional array, and mne built both objects; the object is
    the one mne built, with the file name put in as its source. *)
Theorem read_numpy_result_origin fname sfreq args kwargs raw :
  read_numpy fname sfreq args kwargs = inr raw →
  ∃ npy rows cols info r,
    np_load fname = inr npy
    ∧ shape npy = [rows; cols]
    ∧ mne_create_info rows sfreq = inr info
    ∧ mne_RawArray npy info = inr r
    ∧ raw = mkRaw (raw_info r) (raw_data r) [fname].
Proof.
  unfold read_numpy.
  destruct (np_load fname) as [e | npy] eqn:Hload; [done |]. simpl.
  case_decide as Hnd; [done |].
  unfold ndim in Hnd.
  destruct (shape npy) as [| rows [| cols [| ? ?]]] eqn:Hshape;
    try discriminate Hnd.
  simpl.
  destruct (mne_create_info rows sfreq) as [e | info] eqn:Hci; [done |]. simpl.
  destruct (mne_RawArray npy info) as [e | r] eqn:Hra; [done |]. simpl.
  intros [= <-]. exists npy, rows, cols, info, r. done.
Qed.

End ModuleDispatch.

(** ** The properties at work on concrete calls *)

Lemma longest_suffix_dispatched_witness :
  maxsuffixes (W := sample_world false) gz_supported = inr 3%nat
  ∧ gz_supported (W := sample_world false) !! ".gz" = Some (Fn (External read_raw_edf))
  ∧ resolve (W := sample_world false) gz_supported gz_supported "x.data.fif.gz"
    = inr (Some (".fif.gz", Fn (External read_raw_fif)))
  ∧ read_raw_in (W := sample_world false) gz_supported gz_supported
      "x.data.fif.gz" [] ∅
    = inl (ExternalError "read_raw_fif").
Proof.
  split; [vm_compute; reflexivity |].
  split; [vm_compute; reflexivity |].
  refine (proj2 (longest_suffix_dispatched (W := sample_world false)
            gz_supported gz_supported "x.data.fif.gz" [] ∅ 3 2 1
            (Fn (External read_raw_fif)) _ _ _ _ _ _ _)).
  - vm_compute; reflexivity.
  - lia.
  - lia.
  - vm_compute; lia.
  - vm_compute; reflexivity.
  - vm_compute. eexists; reflexivity.
  - intros j Hj. assert (j = 3%nat) as -> by lia. vm_compute; reflexivity.
Defined.

Lemma unknown_format_reported_witness :
  read_raw (W := sample_world true) "data.unknownext" [VInt 250] ∅
  = inl (ValueError "Unknown file type ['.unknownext'].")
  ∧ ∃ before after,
      "Unknown file type ['.unknownext']." = before ++ "'.unknownext'" ++ after.
Proof.
  assert (Hnone : ∀ k : nat, (1 ≤ k ≤ 2)%nat →
            readers (W := sample_world true)
              !! candidate (PurePath.suffixes "data.unknownext") (- Z.of_nat k) = None).
  { intros k Hk. assert (k = 1 ∨ k = 2)%nat as [-> | ->] by lia; vm_compute; reflexivity. }
  destruct (unknown_format_reported (W := sample_world true)
              supported readers "data.unknownext" [VInt 250] ∅ 2
              ltac:(vm_compute; reflexivity) Hnone) as [Hraise Hnames].
  split; [exact Hraise |].
  apply (Hnames ".unknownext"). vm_compute. constructor.
Defined.



(** C2, as first stated, fails: were [.vmrk] a supported suffix as well, the
    merge would hand out the suggested entry, not the supported one. *)
Lemma shared_key_takes_suggested_entry :
  clash_supported (W := sample_world false) !! ".vmrk"
  = Some (Fn (External read_raw_brainvision))
  ∧ suggested (W := sample_world false) !! ".vmrk"
    = Some (Partial ReadUnsupported (dict_of [("suggest", VStr ".vhdr")]))
  ∧ dict_merge (clash_supported (W := sample_world false)) suggested !! ".vmrk"
    = Some (Partial ReadUnsupported (dict_of [("suggest", VStr ".vhdr")]))
  ∧ dict_merge (clash_supported (W := sample_world false)) suggested !! ".vmrk"
    ≠ clash_supported (W := sample_world false) !! ".vmrk".
Proof.
  repeat split; try (vm_compute; reflexivity).
  vm_compute. discriminate.
Qed.

Lemma suffix_match_ignores_case_witness :
  PurePath.suffixes "data.edf" = map PyStr.lower (PurePath.suffixes "Data.EDF")
  ∧ resolve (W := sample_world false) supported readers "data.edf"
    = resolve (W := sample_world false) supported readers "Data.EDF"
  ∧ resolve (W := sample_world false) supported readers "Data.EDF"
    = inr (Some (".edf", Fn (External read_raw_edf))).
Proof.
  split; [vm_compute; reflexivity |].
  split; [| vm_compute; reflexivity].
  exact (proj1 (proj2 (suffix_match_ignores_case (W := sample_world false)
                         supported readers "Data.EDF" "data.edf"
                         ltac:(vm_compute; reflexivity)))).
Defined.


Lemma unsupported_message_shows_all_suffixes_witness :
  resolve (W := sample_world true) supported readers "a.B.vmrk"
  = inr (Some (".vmrk", Partial ReadUnsupported (dict_of [("suggest", VStr ".vhdr")])))
  ∧ (∃ hint, read_raw (W := sample_world true) "a.B.vmrk" [] ∅
             = inl (ValueError ("Unsupported file type (.B.vmrk)." ++ hint)))
  ∧ ".B.vmrk" ≠ ".vmrk".
Proof.
  split; [vm_compute; reflexivity |].
  destruct (unsupported_message_shows_all_suffixes (W := sample_world true)
              "a.B.vmrk" ".vmrk"
              (Partial ReadUnsupported (dict_of [("suggest", VStr ".vhdr")])) ∅
              ltac:(vm_compute; reflexivity)
              ltac:(vm_compute; eexists; reflexivity)
              ltac:(vm_compute; reflexivity)) as [Hmsg Hne].
  split; [exact Hmsg |].
  apply Hne. vm_compute. lia.
Defined.

Lemma unsupported_reporter_fails_witness :
  call_func (W := sample_world false) ReadUnsupported "session.eeg" []
    (dict_of [("suggest", VStr ".vhdr"); ("preload", VBool true)])
  = inl (ValueError "Unsupported file type (.eeg). Try reading a .vhdr file instead.").
Proof.
  exact (proj1 (unsupported_reporter_fails (W := sample_world false) "session.eeg"
                  (dict_of [("suggest", VStr ".vhdr"); ("preload", VBool true)])
                  ltac:(vm_compute; reflexivity))).
Defined.

(** C4, as first stated, fails: a positional option is not accepted, the
    call stops with a [TypeError] before the reporter runs; and the named
    option [suggest] is not ignored, it replaces the registered hint. *)
Lemma unsupported_reporter_rejects_positional :
  call_func (W := sample_world false) ReadUnsupported "session.vmrk" [VBool true] ∅
  = inl (TypeError (TooManyPositional 2))
  ∧ read_raw (W := sample_world false) "session.vmrk" [VBool true] ∅
    = inl (TypeError (TooManyPositional 2))
  ∧ read_raw (W := sample_world false) "session.vmrk" [] (dict_of [("suggest", VStr ".set")])
    = inl (ValueError "Unsupported file type (.vmrk). Try reading a .set file instead.")
  ∧ read_raw (W := sample_world false) "session.vmrk" [] (dict_of [("suggest", VNone)])
    = inl (ValueError "Unsupported file type (.vmrk).").
Proof. repeat split; vm_compute; reflexivity. Qed.

Lemma read_numpy_dimension_check_witness :
  read_numpy (W := sample_world false) "one.npy" (VInt 250) [] ∅
  = inl (ValueError "Array must have two dimensions (got 1).")
  ∧ ∀ msg, read_numpy (W := sample_world false) "eeg.npy" (VInt 250) [] ∅
           ≠ inl (ValueError msg).
Proof.
  split.
  - refine (proj1 (read_numpy_dimension_check (W := sample_world false)
                     "one.npy" (VInt 250) [] ∅ {| sample_shape := [7%nat] |} _) _).
    + vm_compute; reflexivity.
    + vm_compute; lia.
  - refine (proj2 (read_numpy_dimension_check (W := sample_world false)
                     "eeg.npy" (VInt 250) [] ∅
                     {| sample_shape := [5%nat; 1000%nat] |} _) _).
    + vm_compute; reflexivity.
    + vm_compute; reflexivity.
Defined.



(** C1, as first stated, fails: with [.gz] the only supported key and
    [.b.gz] registered among the readers, the name [scan.b.gz] ends in a
    registered compound suffix whose tail is registered too, yet the bound
    is 1, the compound is never tried, and the reader of the shorter [.gz]
    is the one called. *)
Lemma compound_beyond_bound_loses_to_tail :
  maxsuffixes (W := sample_world false) gz_only = inr 1%nat
  ∧ dict_merge (gz_only (W := sample_world false)) long_suggested
      !! candidate (PurePath.suffixes "scan.b.gz") (-2)
    = Some (Partial ReadUnsupported (dict_of [("suggest", VStr ".fif")]))
  ∧ dict_merge (gz_only (W := sample_world false)) long_suggested
      !! candidate (PurePath.suffixes "scan.b.gz") (-1)
    = Some (Fn (External read_raw_fif))
  ∧ resolve (W := sample_world false) gz_only (dict_merge gz_only long_suggested)
      "scan.b.gz"
    = inr (Some (".gz", Fn (External read_raw_fif)))
  ∧ read_raw_in (W := sample_world false) gz_only (dict_merge gz_only long_suggested)
      "scan.b.gz" [] ∅
    = call (Fn (External read_raw_fif)) "scan.b.gz" [] ∅
  ∧ read_raw_in (W := sample_world false) gz_only (dict_merge gz_only long_suggested)
      "scan.b.gz" [] ∅
    ≠ call (Partial ReadUnsupported (dict_of [("suggest", VStr ".fif")]))
        "scan.b.gz" [] ∅.
Proof.
  repeat split; try (vm_compute; reflexivity).
  vm_compute. discriminate.
Qed.

Lemma resolve_longest_registered_witness :
  resolve (W := sample_world false) gz_supported gz_supported "x.data.fif.gz"
  = inr (Some (".fif.gz", Fn (External read_raw_fif))).
Proof.
  refine (proj2 (resolve_longest_registered (W := sample_world false)
                   gz_supported gz_supported "x.data.fif.gz" 3 ".fif.gz"
                   (Fn (External read_raw_fif)) _) _).
  - vm_compute; reflexivity.
  - exists 2%nat. split; [lia |]. split; [vm_compute; reflexivity |].
    split; [vm_compute; reflexivity |].
    intros j Hj. assert (j = 3%nat) as -> by lia. vm_compute; reflexivity.
Defined.

Lemma resolve_reads_last_suffixes_witness :
  resolve (W := sample_world false) supported readers "a.b.fif.gz"
  = resolve (W := sample_world false) supported readers "zzz.fif.gz".
Proof.
  refine (resolve_reads_last_suffixes (W := sample_world false)
            supported readers "a.b.fif.gz" "zzz.fif.gz" 2 _ _).
  - vm_compute; reflexivity.
  - vm_compute; reflexivity.
Defined.

Lemma single_suffix_is_looked_up_witness :
  read_raw_in (W := sample_world false) supported readers "Data.EDF" [] ∅
  = inl (ExternalError "read_raw_edf").
Proof.
  refine (single_suffix_is_looked_up (W := sample_world false)
            supported readers "Data.EDF" ".EDF" [] ∅ 2 _ _ _).
  - vm_compute; reflexivity.
  - vm_compute; reflexivity.
  - lia.
Defined.

Lemma mixed_case_key_unreachable_witness :
  upper_key (W := sample_world false) !! ".EDF" = Some (Fn (External read_raw_edf))
  ∧ resolve (W := sample_world false) upper_key upper_key "a.EDF"
    ≠ inr (Some (".EDF", Fn (External read_raw_edf))).
Proof.
  split; [vm_compute; reflexivity |].
  refine (mixed_case_key_unreachable (W := sample_world false)
            upper_key upper_key "a.EDF" ".EDF" (Fn (External read_raw_edf)) _).
  vm_compute. discriminate.
Defined.

Lemma directory_is_ignored_witness :
  PurePath.suffixes "/data.v2/sub.d/rec.vhdr" = PurePath.suffixes "rec.vhdr"
  ∧ resolve (W := sample_world false) supported readers "/data.v2/sub.d/rec.vhdr"
    = resolve (W := sample_world false) supported readers "rec.vhdr".
Proof.
  refine (directory_is_ignored (W := sample_world false)
            supported readers "/data.v2/sub.d" "rec.vhdr" _ _ _).
  - vm_compute; reflexivity.
  - discriminate.
  - discriminate.
Defined.

Lemma registered_last_suffix_is_dispatched_witness :
  resolve (W := sample_world false) supported readers "run.old.BDF"
  = inr (Some (".bdf", Fn (External read_raw_bdf)))
  ∧ read_raw (W := sample_world false) "run.old.BDF" [] ∅
    = inl (ExternalError "read_raw_bdf").
Proof.
  refine (registered_last_suffix_is_dispatched (W := sample_world false)
            "run.old.BDF" ".BDF" (Fn (External read_raw_bdf)) [] ∅ _ _).
  - vm_compute; reflexivity.
  - vm_compute; reflexivity.
Defined.

Lemma xdf_depends_on_pyxdf_witness :
  read_raw (W := sample_world false) "rec.XDF" [] ∅
  = inl (ValueError "Unknown file type ['.XDF'].")
  ∧ read_raw (W := sample_world true) "rec.xdf.gz" [] ∅
    = inl (ExternalError "read_raw_xdf").
Proof.
  split.
  - refine (xdf_depends_on_pyxdf (W := sample_world false) "rec.XDF" [] ∅ _).
    left. exists ".XDF". split; [vm_compute; reflexivity |].
    left. vm_compute; reflexivity.
  - refine (xdf_depends_on_pyxdf (W := sample_world true) "rec.xdf.gz" [] ∅ _).
    right. exists [], ".xdf", ".gz".
    split; [vm_compute; reflexivity |]. split; vm_compute; reflexivity.
Defined.

Lemma name_without_suffix_is_unknown_witness :
  read_raw (W := sample_world true) "recording.edf." [] ∅
  = inl (ValueError "Unknown file type [].")
  ∧ read_raw (W := sample_world true) "/home/me/.edf" [] ∅
    = inl (ValueError "Unknown file type [].").
Proof.
  split.
  - refine (name_without_suffix_is_unknown (W := sample_world true)
              "recording.edf." [] ∅ _).
    left. vm_compute; reflexivity.
  - refine (name_without_suffix_is_unknown (W := sample_world true)
              "/home/me/.edf" [] ∅ _).
    right. vm_compute; reflexivity.
Defined.



Lemma suggested_file_is_never_read_witness :
  (∃ msg, read_raw (W := sample_world false) "x.EEG" [VInt 1] ∅ = inl (ValueError msg))
  ∨ (∃ why, read_raw (W := sample_world false) "x.EEG" [VInt 1] ∅ = inl (TypeError why)).
Proof.
  refine (suggested_file_is_never_read (W := sample_world false)
            "x.EEG" ".EEG" [VInt 1] ∅ _ _).
  - vm_compute; reflexivity.
  - right. vm_compute; reflexivity.
Defined.

Lemma read_numpy_result_origin_witness :
  ∃ npy rows cols info r,
    np_load (World := sample_world false) "eeg.npy" = inr npy
    ∧ shape npy = [rows; cols]
    ∧ mne_create_info rows (VInt 250) = inr info
    ∧ mne_RawArray npy info = inr r
    ∧ mkRaw (mkInfo 5 (VInt 250)) {| sample_shape := [5%nat; 1000%nat] |} ["eeg.npy"]
      = mkRaw (raw_info r) (raw_data r) ["eeg.npy"].
Proof.
  refine (read_numpy_result_origin (W := sample_world false)
            "eeg.npy" (VInt 250) [] ∅
            (mkRaw (mkInfo 5 (VInt 250)) {| sample_shape := [5%nat; 1000%nat] |} ["eeg.npy"])
            _).
  vm_compute; reflexivity.
Defined.
